(** * node-eks-app-monitoring: the HTTP surface of [server.js]

  [server.js] is a single Express application with three GET routes
  ([/], [/health], [/metrics]), a prom-client registry filled by the
  default collectors, and a listener on a fixed port.  This development
  embeds that file and settles the claims of the specification on it.

  Layout: the JavaScript values the handlers build ([Js]), the digest and
  encoding behind the framework's entity tags ([Sha1], [Base64]), the part
  of the framework's request/response interface the handlers drive
  ([Express]),
  the registry interface the metrics handler reads ([PromClient]), the
  program itself ([Server]), the specification's own wording of the
  health contract, the port rule and the metric registry ([Spec]), the
  notions the theorems share about the surface as a whole ([Surface]),
  and then the theorems. *)

From Stdlib Require Import ZArith Ascii String HexadecimalString.
From stdpp Require Import base strings list gmap pretty.

Local Open Scope string_scope.
Local Open Scope Z_scope.

(** ** JavaScript values and [JSON.stringify] *)

Module Js.

(** The values the handlers pass to [res.json]: object literals whose
    fields are strings or further objects. *)
#[warning="-register-all"]
Inductive Value :=
| Str (s : string)
| Obj (fields : list (string * Value)).

Definition dquote : ascii := "034"%char.
Definition backslash : ascii := "092"%char.

Definition hex_digit (n : N) : ascii :=
  if (n <? 10)%N then ascii_of_N (48 + n) else ascii_of_N (87 + n).

(** One character of a JSON string literal. *)
Definition escape_char (c : ascii) : string :=
  let n := N_of_ascii c in
  if Ascii.eqb c dquote then String backslash (String dquote "")
  else if Ascii.eqb c backslash then String backslash (String backslash "")
  else if (n =? 8)%N then String backslash "b"
  else if (n =? 9)%N then String backslash "t"
  else if (n =? 10)%N then String backslash "n"
  else if (n =? 12)%N then String backslash "f"
  else if (n =? 13)%N then String backslash "r"
  else if (n <? 32)%N then
    String backslash
      (String "u" (String "0" (String "0"
        (String (hex_digit (n / 16)) (String (hex_digit (n mod 16)) "")))))
  else String c "".

Fixpoint escape (s : string) : string :=
  match s with
  | EmptyString => ""
  | String c s' => escape_char c +:+ escape s'
  end.

Definition quote (s : string) : string :=
  String dquote (escape s +:+ String dquote "").

(** [JSON.stringify] without replacer or indentation, as [res.json]
    calls it under the default application settings. *)
Fixpoint stringify (v : Value) : string :=
  match v with
  | Str s => quote s
  | Obj fields =>
      let fix members (first : bool) (l : list (string * Value)) : string :=
        match l with
        | [] => ""
        | (k, x) :: l' =>
            (if first then "" else ",") +:+ quote k +:+ ":" +:+ stringify x
            +:+ members false l'
        end in
      "{" +:+ members true fields +:+ "}"
  end.

(** What [await p] finds: the promise settled with a value, or rejected. *)
Inductive Promise (A : Type) :=
| Resolved (a : A)
| Rejected (reason : string).
Arguments Resolved {A} a.
Arguments Rejected {A} reason.

End Js.

(** ** SHA-1 and Base64, as the framework's entity tags use them *)

Module Sha1.

(** Words are 32-bit integers, kept in [Z] with the wrap-around written
    out. *)

Definition w32 (x : Z) : Z := Z.land x 4294967295.

Definition rotl (n x : Z) : Z :=
  w32 (Z.lor (Z.shiftl x n) (Z.shiftr x (32 - n))).

Fixpoint bytes (s : string) : list Z :=
  match s with
  | EmptyString => []
  | String c s' => Z.of_N (N_of_ascii c) :: bytes s'
  end.

(** [n] as [k] big-endian bytes. *)
Fixpoint big_endian (k : nat) (n : Z) : list Z :=
  match k with
  | O => []
  | S k' => (big_endian k' (Z.shiftr n 8) ++ [Z.land n 255])%list
  end.

Definition pad (msg : list Z) : list Z :=
  let l := Z.of_nat (length msg) in
  (msg ++ [128] ++ replicate (Z.to_nat ((55 - l) mod 64)) 0
       ++ big_endian 8 (8 * l))%list.

Fixpoint word (bs : list Z) : Z :=
  match bs with
  | [] => 0
  | b :: bs' => Z.shiftl b (8 * Z.of_nat (length bs')) + word bs'
  end.

(** The words of a byte list, four bytes each. *)
Fixpoint words (n : nat) (bs : list Z) : list Z :=
  match n with
  | O => []
  | S n' => word (take 4 bs) :: words n' (drop 4 bs)
  end.

(** The message schedule, latest word first. *)
Fixpoint schedule (n : nat) (w : list Z) : list Z :=
  match n with
  | O => w
  | S n' =>
      let x := Z.lxor (Z.lxor (nth 2 w 0) (nth 7 w 0))
                      (Z.lxor (nth 13 w 0) (nth 15 w 0)) in
      schedule n' (rotl 1 x :: w)
  end.

Definition round (t : Z) (st : Z * Z * Z * Z * Z) (wt : Z) : Z * Z * Z * Z * Z :=
  let '(a, b, c, d, e) := st in
  let '(f, k) :=
    if t <? 20 then
      (Z.lor (Z.land b c) (Z.land (Z.lxor b 4294967295) d), 1518500249)
    else if t <? 40 then (Z.lxor (Z.lxor b c) d, 1859775393)
    else if t <? 60 then
      (Z.lor (Z.lor (Z.land b c) (Z.land b d)) (Z.land c d), 2400959708)
    else (Z.lxor (Z.lxor b c) d, 3395469782) in
  (w32 (rotl 5 a + f + e + k + wt), a, rotl 30 b, c, d).

Fixpoint rounds (t : Z) (ws : list Z) (st : Z * Z * Z * Z * Z)
    : Z * Z * Z * Z * Z :=
  match ws with
  | [] => st
  | wt :: ws' => rounds (t + 1) ws' (round t st wt)
  end.

Definition compress (h : Z * Z * Z * Z * Z) (block : list Z) : Z * Z * Z * Z * Z :=
  let ws := rev (schedule 64 (rev (words 16 block))) in
  let '(h0, h1, h2, h3, h4) := h in
  let '(a, b, c, d, e) := rounds 0 ws h in
  (w32 (h0 + a), w32 (h1 + b), w32 (h2 + c), w32 (h3 + d), w32 (h4 + e)).

Fixpoint blocks (n : nat) (bs : list Z) (h : Z * Z * Z * Z * Z)
    : Z * Z * Z * Z * Z :=
  match n with
  | O => h
  | S n' => blocks n' (drop 64 bs) (compress h (take 64 bs))
  end.

(** The 20 bytes of the SHA-1 digest of a byte string. *)
Definition digest (s : string) : list Z :=
  let bs := pad (bytes s) in
  let '(h0, h1, h2, h3, h4) :=
    blocks (length bs / 64) bs
      (1732584193, 4023233417, 2562383102, 271733878, 3285377520) in
  (big_endian 4 h0 ++ big_endian 4 h1 ++ big_endian 4 h2
     ++ big_endian 4 h3 ++ big_endian 4 h4)%list.

End Sha1.

Module Base64.

(** The standard alphabet, with [=] padding. *)

Definition alphabet : string :=
  "ABCDEFGHIJKLMNOPQRSTUVWXYZabcdefghijklmnopqrstuvwxyz0123456789+/".

Definition digit (n : Z) : ascii :=
  match String.get (Z.to_nat n) alphabet with
  | Some c => c
  | None => "="%char
  end.

Fixpoint encode_groups (n : nat) (bs : list Z) : string :=
  match n with
  | O => ""
  | S n' =>
      match bs with
      | [] => ""
      | [a] =>
          String (digit (Z.shiftr a 2))
            (String (digit (Z.land (Z.shiftl a 4) 63)) "==")
      | [a; b] =>
          String (digit (Z.shiftr a 2))
            (String (digit (Z.land (Z.lor (Z.shiftl a 4) (Z.shiftr b 4)) 63))
              (String (digit (Z.land (Z.shiftl b 2) 63)) "="))
      | a :: b :: c :: bs' =>
          String (digit (Z.shiftr a 2))
            (String (digit (Z.land (Z.lor (Z.shiftl a 4) (Z.shiftr b 4)) 63))
              (String (digit (Z.land (Z.lor (Z.shiftl b 2) (Z.shiftr c 6)) 63))
                (String (digit (Z.land c 63)) (encode_groups n' bs'))))
      end
  end.

Definition encode (bs : list Z) : string := encode_groups (length bs) bs.

End Base64.

(** ** The framework interface (Express 4, the version the README pins) *)

Module Express.

Inductive Method :=
| GET | HEAD | OPTIONS | POST | PUT | PATCH | DELETE
| OtherVerb (name : string).

Definition method_name (m : Method) : string :=
  match m with
  | GET => "GET" | HEAD => "HEAD" | OPTIONS => "OPTIONS" | POST => "POST"
  | PUT => "PUT" | PATCH => "PATCH" | DELETE => "DELETE"
  | OtherVerb name => name
  end.

Definition is_options (m : Method) : bool :=
  match m with OPTIONS => true | _ => false end.

Definition is_head (m : Method) : bool :=
  match m with HEAD => true | _ => false end.

(** A parsed request: [req_path] is the pathname of the URL, the query
    string is kept apart, as the router sees them; [req_headers] is
    [req.headers], the header object keyed by lower-cased field name. *)
Record Request := {
  req_method : Method;
  req_path : string;
  req_query : string;
  req_headers : gmap string string;
  req_body : string
}.

(** The body of a response: text handed over by a handler, or the
    framework's own HTML page for a request nothing answered. *)
Inductive Body :=
| Text (s : string)
| NotFoundPage (m : Method) (path : string).

(** The response as the handler and the router determine it: status,
    body, and the header fields set through the response interface by the
    handlers, by [res.send] (Content-Type, Content-Length, ETag) and by
    the router's OPTIONS answer (Allow), keyed by lower-cased field name.
    Not tracked: X-Powered-By, the security headers and Content-Length of
    the 404 page, and what the HTTP layer adds when the response is
    written (Date, Connection, the Content-Length it derives for a body
    handed to [res.end]). *)
Record Response := {
  statusCode : Z;
  headers : gmap string string;
  body : Body
}.

(** [res] as a handler receives it. *)
Definition fresh : Response :=
  {| statusCode := 200; headers := ∅; body := Text "" |}.

Definition lower_char (c : ascii) : ascii :=
  let n := N_of_ascii c in
  if ((65 <=? n) && (n <=? 90))%N then ascii_of_N (n + 32) else c.

Fixpoint lower (s : string) : string :=
  match s with
  | EmptyString => ""
  | String c s' => String (lower_char c) (lower s')
  end.

Fixpoint skip_space (s : string) : string :=
  match s with
  | String c s' => if Ascii.is_space c then skip_space s' else s
  | EmptyString => ""
  end.

Fixpoint strip_prefix (p s : string) : option string :=
  match p, s with
  | EmptyString, _ => Some s
  | String a p', String b s' =>
      if Ascii.eqb a b then strip_prefix p' s' else None
  | String _ _, EmptyString => None
  end.

(** What follows a [;] announces a charset: [\s*charset\s*=]. *)
Definition charset_here (s : string) : bool :=
  match strip_prefix "charset" (skip_space s) with
  | Some rest =>
      match skip_space rest with
      | String c _ => Ascii.eqb c "="
      | EmptyString => false
      end
  | None => false
  end.

(** The test [/;\s*charset\s*=/] of [res.set] (ASCII white space). *)
Fixpoint has_charset (v : string) : bool :=
  match v with
  | EmptyString => false
  | String c v' =>
      (Ascii.eqb c ";" && charset_here v') || has_charset v'
  end.

(** The media types the framework completes with a charset:
    [text/*], [application/javascript], [application/json]. *)
Definition default_charset (v : string) : option string :=
  if String.prefix "text/" v
     || String.prefix "application/javascript" v
     || String.prefix "application/json" v
  then Some "utf-8" else None.

Definition with_charset (v : string) : string :=
  if has_charset v then v
  else match default_charset v with
       | Some cs => v +:+ "; charset=" +:+ cs
       | None => v
       end.

Definition get (field : string) (res : Response) : option string :=
  headers res !! lower field.

(** [res.set(field, value)]: a Content-Type without charset is
    completed with the default charset of its media type. *)
Definition set (field value : string) (res : Response) : Response :=
  let key := lower field in
  let value := if String.eqb key "content-type" then with_charset value
               else value in
  {| statusCode := statusCode res;
     headers := <[key := value]> (headers res);
     body := body res |}.

(** [res.removeHeader(field)]. *)
Definition remove (field : string) (res : Response) : Response :=
  {| statusCode := statusCode res;
     headers := delete (lower field) (headers res);
     body := body res |}.

(** [res.end(chunk)]: the chunk is the body, the response is complete. *)
Definition end_ (chunk : string) (res : Response) : Response :=
  {| statusCode := statusCode res;
     headers := headers res;
     body := Text chunk |}.

(** A header value JavaScript takes for present: defined and not empty. *)
Definition truthy (v : option string) : bool :=
  match v with
  | Some (String _ _) => true
  | Some EmptyString | None => false
  end.

(** The entity tag of a body: its length in hexadecimal and the first 27
    characters of the Base64 of its SHA-1, in double quotes. *)
Definition entitytag (entity : string) : string :=
  let dq := String Js.dquote "" in
  if (String.length entity =? 0)%nat
  then dq +:+ "0-2jmj7l5rSw0yVb/vlWAYkK/YBwk" +:+ dq
  else dq
       +:+ NilZero.string_of_uint (N.to_hex_uint (N.of_nat (String.length entity)))
       +:+ "-"
       +:+ String.substring 0 27 (Base64.encode (Sha1.digest entity))
       +:+ dq.

(** The application's default [etag fn]: weak entity tags. *)
Definition wetag (entity : string) : string := "W/" +:+ entitytag entity.

(** [str.split(",")]. *)
Fixpoint split_commas (s : string) : list string :=
  match s with
  | EmptyString => [""]
  | String c s' =>
      if Ascii.eqb c ","
      then "" :: split_commas s'
      else match split_commas s' with
           | token :: tokens => String c token :: tokens
           | [] => [String c ""]
           end
  end.

Fixpoint trim_left (blank : ascii -> bool) (s : string) : string :=
  match s with
  | String c s' => if blank c then trim_left blank s' else s
  | EmptyString => ""
  end.

Fixpoint trim_right (blank : ascii -> bool) (s : string) : string :=
  match s with
  | String c s' =>
      match trim_right blank s' with
      | EmptyString => if blank c then "" else String c ""
      | rest => String c rest
      end
  | EmptyString => ""
  end.

Definition trim (blank : ascii -> bool) (s : string) : string :=
  trim_right blank (trim_left blank s).

(** [parseTokenList]: the comma-separated tokens of a header value, the
    spaces around each dropped. *)
Definition parse_token_list (s : string) : list string :=
  map (trim (fun c => Ascii.eqb c " ")) (split_commas s).

(** White space of a JavaScript regular expression, among the characters
    a header value can hold. *)
Definition is_js_space (c : ascii) : bool :=
  Ascii.is_space c || (N_of_ascii c =? 160)%N.

(** The test [/(?:^|,)\s*?no-cache\s*?(?:,|$)/]: some comma-separated
    directive is [no-cache]. *)
Definition no_cache (v : string) : bool :=
  existsb (fun d => String.eqb (trim is_js_space d) "no-cache")
          (split_commas v).

(** One token of If-None-Match names the entity tag, weakly compared. *)
Definition etag_matches (etag token : string) : bool :=
  String.eqb token etag
  || String.eqb token ("W/" +:+ etag)
  || String.eqb ("W/" +:+ token) etag.

(** [fresh(req.headers, { etag, last-modified })]: the conditional request
    is satisfied by what the client already holds.  No response of this
    program carries Last-Modified, so the function is written for that
    case: a request with If-Modified-Since is never fresh, and no date is
    compared. *)
Definition fresh_headers (reqHeaders : gmap string string)
    (etag : option string) : bool :=
  let modifiedSince := reqHeaders !! "if-modified-since" in
  let noneMatch := reqHeaders !! "if-none-match" in
  if negb (truthy modifiedSince) && negb (truthy noneMatch) then false
  else if match reqHeaders !! "cache-control" with
          | Some cacheControl => truthy (Some cacheControl) && no_cache cacheControl
          | None => false
          end
  then false
  else if match noneMatch with
          | Some tokens =>
              truthy noneMatch && negb (String.eqb tokens "*")
              && negb (match etag with
                       | Some tag =>
                           truthy etag
                           && existsb (etag_matches tag) (parse_token_list tokens)
                       | None => false
                       end)
          | None => false
          end
  then false
  else if truthy modifiedSince then false
  else true.

(** [req.fresh]: GET or HEAD, a status of 2xx or 304, and fresh headers. *)
Definition req_fresh (req : Request) (res : Response) : bool :=
  match req_method req with
  | GET | HEAD =>
      (((200 <=? statusCode res) && (statusCode res <? 300))
       || (statusCode res =? 304))
      && fresh_headers (req_headers req) (get "ETag" res)
  | _ => false
  end.

(** The header part of [res.send(chunk)] for a string: the Content-Type
    defaults to html when the handler set none, a string body is stamped
    utf-8 (a type that [set] completed already carries it; no handler of
    this program sets another charset), the Content-Length is the byte
    length, and the ETag is generated unless one is set. *)
Definition send_headers (chunk : string) (res : Response) : Response :=
  let res := match get "Content-Type" res with
             | None => set "Content-Type" "text/html" res
             | Some _ => res
             end in
  let res := match get "Content-Type" res with
             | Some type => set "Content-Type" (with_charset type) res
             | None => res
             end in
  let generateETag := negb (truthy (get "ETag" res)) in
  let res := set "Content-Length" (pretty (String.length chunk)) res in
  if generateETag then set "ETag" (wetag chunk) res else res.

(** [res.send(chunk)] on the response of the request [req]: after the
    headers, a fresh request turns the status into 304; a 204 or 304
    loses its content headers and its body, a 205 its body; and no body
    is written to HEAD. *)
Definition send (req : Request) (chunk : string) (res : Response) : Response :=
  let res := send_headers chunk res in
  let res := if req_fresh req res
             then {| statusCode := 304;
                     headers := headers res;
                     body := body res |}
             else res in
  let bare := (statusCode res =? 204) || (statusCode res =? 304) in
  let res := if bare
             then remove "Transfer-Encoding"
                    (remove "Content-Length" (remove "Content-Type" res))
             else res in
  let chunk := if bare then "" else chunk in
  let reset := statusCode res =? 205 in
  let res := if reset
             then remove "Transfer-Encoding" (set "Content-Length" "0" res)
             else res in
  let chunk := if reset then "" else chunk in
  if is_head (req_method req) then end_ "" res else end_ chunk res.

(** [res.json(obj)]. *)
Definition json (req : Request) (obj : Js.Value) (res : Response) : Response :=
  let chunk := Js.stringify obj in
  let res := match get "Content-Type" res with
             | None => set "Content-Type" "application/json" res
             | Some _ => res
             end in
  send req chunk res.

(** How the handling of one request ends: a response is written, or the
    promise of an async handler rejects.  The framework does not look at
    the promise a handler returns, so a rejection is caught by nobody:
    nothing is written for the request and the rejection goes to the
    runtime as an unhandled rejection. *)
Inductive Outcome :=
| Sent (res : Response)
| Unhandled (reason : string).

(** [await p] inside an async handler. *)
Definition await {A : Type} (p : Js.Promise A) (k : A -> Outcome) : Outcome :=
  match p with
  | Js.Resolved a => k a
  | Js.Rejected reason => Unhandled reason
  end.

Definition Handler := Request -> Response -> Outcome.

(** One entry of the router's stack, as [app.METHOD(path, handler)]
    adds it. *)
Record Route := {
  route_method : Method;
  route_path : string;
  route_handler : Handler
}.

Definition App := list Route.

(** [express()]. *)
Definition express : App := [].

(** [app.get(path, handler)]: routes are tried in registration order. *)
Definition get_route (path : string) (h : Handler) (app : App) : App :=
  (app ++ [{| route_method := GET; route_path := path; route_handler := h |}])%list.

Definition ends_with_slash (s : string) : bool :=
  match String.get (String.length s - 1) s with
  | Some c => Ascii.eqb c "/"
  | None => false
  end.

(** Matching of a literal route path against the request's pathname
    under the default settings: case-insensitive, whole path, one
    trailing slash optional ([^/health/?$] with flag i). *)
Definition path_match (pattern path : string) : bool :=
  let p := lower path in
  let q := lower pattern in
  if ends_with_slash q
  then String.eqb p q
       || String.eqb p (String.substring 0 (String.length q - 1) q)
  else String.eqb p q || String.eqb p (q +:+ "/").

Definition method_eqb (a b : Method) : bool :=
  match a, b with
  | GET, GET | HEAD, HEAD | OPTIONS, OPTIONS | POST, POST
  | PUT, PUT | PATCH, PATCH | DELETE, DELETE => true
  | OtherVerb x, OtherVerb y => String.eqb x y
  | _, _ => false
  end.

(** A route handles its own method; a GET route also answers HEAD. *)
Definition handles_method (r : Route) (m : Method) : bool :=
  method_eqb (route_method r) m
  || (is_head m && method_eqb (route_method r) GET).

(** The methods a route advertises to OPTIONS. *)
Definition route_options (r : Route) : list string :=
  match route_method r with
  | GET => ["GET"; "HEAD"]
  | m => [method_name m]
  end.

Fixpoint append_methods (acc new : list string) : list string :=
  match new with
  | [] => acc
  | m :: new' =>
      append_methods
      (if existsb (String.eqb m) acc then acc else (acc ++ [m])%list) new'
  end.

Fixpoint join (sep : string) (l : list string) : string :=
  match l with
  | [] => ""
  | [x] => x
  | x :: l' => x +:+ sep +:+ join sep l'
  end.

(** The automatic answer to OPTIONS on a path some route matches. *)
Definition options_response (req : Request) (allowed : list string)
    : Response :=
  let text := join "," allowed in
  send req text (set "Allow" text fresh).

(** The final handler's answer when the stack is exhausted. *)
Definition not_found (req : Request) : Response :=
  {| statusCode := 404;
     headers := {[ "content-type" := "text/html; charset=utf-8" ]};
     body := NotFoundPage (req_method req) (req_path req) |}.

(** The router: the first route whose path matches and which handles
    the method runs; none of the handlers here passes control on. *)
Fixpoint dispatch (stack : list Route) (allowed : list string)
    (req : Request) : Outcome :=
  match stack with
  | [] =>
      if is_options (req_method req) && negb (length allowed =? 0)%nat
      then Sent (options_response req allowed)
      else Sent (not_found req)
  | r :: stack' =>
      if path_match (route_path r) (req_path req)
      then
        if handles_method r (req_method req)
        then route_handler r req fresh
        else dispatch stack'
               (if is_options (req_method req)
                then append_methods allowed (route_options r)
                else allowed)
               req
      else dispatch stack' allowed req
  end.

(** No body travels in the response to HEAD, whichever call ended it.
    (What the HTTP layer then adds or leaves out among the header fields,
    such as a derived Content-Length, is outside the record.) *)
Definition transport (req : Request) (o : Outcome) : Outcome :=
  match o with
  | Sent res =>
      if is_head (req_method req)
      then Sent {| statusCode := statusCode res;
                   headers := headers res;
                   body := Text "" |}
      else Sent res
  | Unhandled reason => Unhandled reason
  end.

Definition handle (app : App) (req : Request) : Outcome :=
  transport req (dispatch app [] req).

End Express.

(** ** The registry interface of prom-client, as [server.js] uses it *)

Module PromClient.

(** A registry as the metrics handler sees it: the [contentType] getter and
    what [metrics()] settles to when the request at hand calls it.  The
    collectors attached to the registry decide that text; it is a parameter
    of the model. *)
Record Registry := {
  contentType : string;
  metrics : Js.Promise string
}.

(** The exposition content type the library declares for its registries. *)
Definition PROMETHEUS_CONTENT_TYPE : string :=
  "text/plain; version=0.0.4; charset=utf-8".

(** [new client.Registry()], observed at a call of [metrics()] that settles
    to [rendering]. *)
Definition new_Registry (rendering : Js.Promise string) : Registry :=
  {| contentType := PROMETHEUS_CONTENT_TYPE; metrics := rendering |}.

End PromClient.

(** ** [server.js] *)

Module Server.
Import Express.

(** [const register = new client.Registry();
     client.collectDefaultMetrics({ register });] *)
Definition register (rendering : Js.Promise string) : PromClient.Registry :=
  PromClient.new_Registry rendering.

Definition greeting : string := "Hello from Node.js App 🚀".

(** [app.get("/", (req, res) => { res.send("Hello from Node.js App 🚀"); })] *)
Definition home : Handler :=
  fun req res => Sent (send req greeting res).

(** [app.get("/health", (req, res) => { res.json({ status: "UP" }); })] *)
Definition health : Handler :=
  fun req res => Sent (json req (Js.Obj [("status", Js.Str "UP")]) res).

(** [app.get("/metrics", async (req, res) => {
       res.set("Content-Type", register.contentType);
       res.end(await register.metrics());
     })] *)
Definition metrics (register : PromClient.Registry) : Handler :=
  fun req res =>
    let res := set "Content-Type" (PromClient.contentType register) res in
    await (PromClient.metrics register) (fun text => Sent (end_ text res)).

(** The application after the three registrations, in source order. *)
Definition app (register : PromClient.Registry) : App :=
  get_route "/metrics" (metrics register)
    (get_route "/health" health
      (get_route "/" home express)).

(** The listener the process ends up with: the bound port and what was
    written to the console. *)
Record Listening := {
  port : Z;
  console : list string
}.

(** [app.listen(3000, () => { console.log("Server running on port 3000"); })].
    [env] is [process.env]; the file never reads it. *)
Definition main (env : gmap string string) : Listening :=
  {| port := 3000; console := ["Server running on port 3000"] |}.

(** The answer of the running process to one request, when the registry's
    [metrics()] would settle to [rendering]. *)
Definition serve (rendering : Js.Promise string) (req : Request) : Outcome :=
  handle (app (register rendering)) req.

(** A bare request: a method and a pathname, nothing else. *)
Definition request (m : Method) (path : string) : Request :=
  {| req_method := m; req_path := path; req_query := "";
     req_headers := ∅; req_body := "" |}.

(** The text the health handler hands to [res.send]. *)
Definition health_text : string :=
  Js.stringify (Js.Obj [("status", Js.Str "UP")]).

(** The request runs the metrics handler: GET or HEAD on a pathname the
    route [/metrics] accepts. *)
Definition reaches_metrics (req : Request) : bool :=
  path_match "/metrics" (req_path req)
  && match req_method req with
     | GET | HEAD => true
     | _ => false
     end.

End Server.

(** ** The specification's wording *)

Module Spec.
Import Express.

(** *** Health status (spec 3, 4.3, 4.4) *)




(** The text [{"status":"UP"}] of spec 6, character by character. *)
Definition up_text : string :=
  let dq := String Js.dquote "" in
  "{" +:+ dq +:+ "status" +:+ dq +:+ ":" +:+ dq +:+ "UP" +:+ dq +:+ "}".

(** *** The port rule (spec 6) *)

Definition digit_value (c : ascii) : option Z :=
  let n := Z.of_N (N_of_ascii c) in
  if (48 <=? n) && (n <=? 57) then Some (n - 48) else None.

Fixpoint parse_digits (s : string) (acc : Z) : option Z :=
  match s with
  | EmptyString => Some acc
  | String c s' =>
      match digit_value c with
      | Some d => parse_digits s' (10 * acc + d)
      | None => None
      end
  end.

(** The port a decimal text denotes. *)
Definition parse_port (s : string) : option Z :=
  match s with
  | EmptyString => None
  | String _ _ => parse_digits s 0
  end.

(** The specification's rule: the port is the value of an environment
    variable, and a default when the variable is unset. *)
Definition spec_listen_port (var : string) (default : Z)
    (env : gmap string string) : option Z :=
  match env !! var with
  | Some v => parse_port v
  | None => Some default
  end.

(** *** Containment of errors (spec 4.4, 7) *)

(** The handling of the request ended in a response with a status code. *)
Definition contained (o : Outcome) : Prop :=
  exists res, o = Sent res.

(** The media type of a Content-Type value: what precedes the first [;]. *)
Fixpoint media_type (v : string) : string :=
  match v with
  | EmptyString => ""
  | String c v' => if Ascii.eqb c ";" then "" else String c (media_type v')
  end.

(** The content type the specification allows for the greeting. *)
Definition greeting_type_allowed (o : Outcome) : Prop :=
  exists res ct,
    o = Sent res
    /\ headers res !! "content-type" = Some ct
    /\ (media_type ct = "text/plain" \/ media_type ct = "application/json").


(** *** The metric registry (spec 3, 4.1) *)

Module MetricRegistry.

Inductive Kind := Counter | Gauge | Histogram.

(** Modelled from the spec: the Metric of spec 3.  The registry class is
    prom-client's; [server.js] only constructs it and hands it to the
    default collectors, so metrics, registration and rendering follow the
    specification's text. *)
Record Metric := {
  name : string;
  kind : Kind;
  labels : list (string * string);
  value : option Z
}.

(** Modelled from the spec: the Registry of spec 3, an insertion-ordered
    collection of metrics (its class is prom-client's, not part of
    [server.js]). *)
Record Registry := {
  entries : list Metric
}.

Definition empty : Registry := {| entries := [] |}.

Definition names (r : Registry) : list string := map name (entries r).

Definition registered (n : string) (r : Registry) : bool :=
  existsb (String.eqb n) (names r).

Inductive RegistryError :=
| DuplicateNameError (n : string).

(** Modelled from the spec: [register(metric_descriptor)] of spec 4.1 (the
    registry's code is prom-client's, not part of [server.js]).  It fails
    with [DuplicateNameError] when the name exists and otherwise adds the
    metric at the end; the handle is the metric's position. *)
Definition register (m : Metric) (r : Registry)
    : Registry * (RegistryError + nat) :=
  if registered (name m) r
  then (r, inl (DuplicateNameError (name m)))
  else ({| entries := entries r ++ [m] |}, inr (length (entries r))).

(** One rendered sample. *)
Record Entry := {
  entry_name : string;
  entry_labels : list (string * string);
  entry_value : string
}.

(** A metric's value as decimal text; an absent value renders as 0. *)
Definition sample (m : Metric) : Entry :=
  {| entry_name := name m;
     entry_labels := labels m;
     entry_value := match value m with
                    | Some v => pretty v
                    | None => "0"
                    end |}.

(** Modelled from the spec: [render()] of spec 4.1, as the list of the
    snapshot's entries, one per metric in registration order (the
    registry's code is prom-client's, not part of [server.js]). *)
Definition render (r : Registry) : list Entry :=
  map sample (entries r).

(** The registries a process can hold: the empty one and what [register]
    leaves behind, whether it succeeded or failed. *)
Inductive reachable : Registry -> Prop :=
| reachable_empty : reachable empty
| reachable_register r m : reachable r -> reachable (fst (register m r)).

(** The entries of a rendering that belong to the name [n]. *)
Definition entries_for (n : string) (r : Registry) : list Entry :=
  filter (fun e => entry_name e = n) (render r).

End MetricRegistry.

End Spec.

(** ** The surface as a whole *)

Module Surface.
Import Express.

(** The paths [server.js] registers, in source order. *)
Definition route_paths : list string := ["/"; "/health"; "/metrics"].

(** Some registered route accepts the pathname. *)
Definition known_path (path : string) : bool :=
  existsb (fun route => path_match route path) route_paths.

(** The request is answered by the application rather than by the final
    handler: a known pathname asked with GET, HEAD or OPTIONS. *)
Definition routed (req : Request) : bool :=
  known_path (req_path req)
  && match req_method req with
     | GET | HEAD | OPTIONS => true
     | _ => false
     end.

(** The same request sent with another method. *)
Definition with_method (m : Method) (req : Request) : Request :=
  {| req_method := m;
     req_path := req_path req;
     req_query := req_query req;
     req_headers := req_headers req;
     req_body := req_body req |}.

(** The header fields of a request that decide whether it is fresh. *)
Definition conditional_headers (req : Request)
    : option string * option string * option string :=
  (req_headers req !! "if-none-match",
   req_headers req !! "if-modified-since",
   req_headers req !! "cache-control").

(** The request is a conditional one that the weak entity tag of [entity]
    satisfies. *)
Definition validated (req : Request) (entity : string) : bool :=
  fresh_headers (req_headers req) (Some (wetag entity)).

(** What [res.send] writes for the body [entity] on the response a handler
    receives, given the Content-Type the response ends up with: a fresh
    request gets 304 with the tag alone, any other the body with its
    length, type and tag; HEAD gets no body. *)
Definition sent (req : Request) (entity type : string) : Response :=
  if validated req entity
  then {| statusCode := 304;
          headers := {[ "etag" := wetag entity ]};
          body := Text "" |}
  else {| statusCode := 200;
          headers := <["etag" := wetag entity]>
                       (<["content-length" := pretty (String.length entity)]>
                          {[ "content-type" := type ]});
          body := Text (if is_head (req_method req) then "" else entity) |}.

(** The request is answered 304: GET or HEAD on [/] or [/health], fresh
    against the body that route sends. *)
Definition not_modified (req : Request) : bool :=
  match req_method req with
  | GET | HEAD =>
      (path_match "/" (req_path req) && validated req Server.greeting)
      || (path_match "/health" (req_path req)
          && validated req Server.health_text)
  | _ => false
  end.

(** The routes of a stack that accept the pathname of a request. *)
Definition accepting (req : Request) (stack : list Route) : list Route :=
  filter (fun r => path_match (route_path r) (req_path req) = true) stack.

End Surface.

(** ** Routing facts *)

Import Express Surface.

Local Arguments path_match : simpl never.
Local Arguments Js.stringify : simpl never.
Local Arguments send : simpl never.
Local Arguments send_headers : simpl never.
Local Arguments json : simpl never.
Local Arguments set : simpl never.
Local Arguments fresh_headers : simpl never.
Local Arguments wetag : simpl never.
Local Arguments no_cache : simpl never.

Lemma path_match_true pattern path :
  path_match pattern path = true ->
  lower path = lower pattern
  \/ lower path
     = (if ends_with_slash (lower pattern)
        then String.substring 0 (String.length (lower pattern) - 1) (lower pattern)
        else lower pattern +:+ "/").
Proof.
  unfold path_match.
  destruct (ends_with_slash (lower pattern));
    rewrite orb_true_iff, !String.eqb_eq; tauto.
Qed.

(** A pathname that one literal route accepts is refused by a route with
    another literal: decided on the two spellings the first accepts. *)
Ltac refused_by_other H path :=
  let H' := fresh in
  pose proof (path_match_true _ _ H) as H';
  unfold path_match;
  generalize dependent (lower path);
  let lp := fresh "lp" in
  intros lp; intros; vm_compute in H';
  destruct H' as [-> | ->]; reflexivity.

Lemma health_not_home path :
  path_match "/health" path = true -> path_match "/" path = false.
Proof. intros H. refused_by_other H path. Qed.

Lemma metrics_not_home path :
  path_match "/metrics" path = true -> path_match "/" path = false.
Proof. intros H. refused_by_other H path. Qed.

Lemma metrics_not_health path :
  path_match "/metrics" path = true -> path_match "/health" path = false.
Proof. intros H. refused_by_other H path. Qed.

(** The router on the application of [server.js], route by route. *)
Lemma dispatch_app register req :
  dispatch (Server.app register) [] req
  = if path_match "/" (req_path req)
    then if handles_method
              {| route_method := GET; route_path := "/";
                 route_handler := Server.home |} (req_method req)
         then Server.home req fresh
         else dispatch
                [ {| route_method := GET; route_path := "/health";
                     route_handler := Server.health |};
                  {| route_method := GET; route_path := "/metrics";
                     route_handler := Server.metrics register |} ]
                (if is_options (req_method req) then ["GET"; "HEAD"] else [])
                req
    else if path_match "/health" (req_path req)
    then if handles_method
              {| route_method := GET; route_path := "/health";
                 route_handler := Server.health |} (req_method req)
         then Server.health req fresh
         else dispatch
                [ {| route_method := GET; route_path := "/metrics";
                     route_handler := Server.metrics register |} ]
                (if is_options (req_method req) then ["GET"; "HEAD"] else [])
                req
    else if path_match "/metrics" (req_path req)
    then if handles_method
              {| route_method := GET; route_path := "/metrics";
                 route_handler := Server.metrics register |} (req_method req)
         then Server.metrics register req fresh
         else if is_options (req_method req)
              then Sent (options_response req ["GET"; "HEAD"])
              else Sent (not_found req)
    else Sent (not_found req).
Proof.
  unfold Server.app, get_route, express. cbn [app dispatch route_path].
  destruct (path_match "/" (req_path req)); [reflexivity|].
  destruct (path_match "/health" (req_path req)); [reflexivity|].
  destruct (path_match "/metrics" (req_path req)); [|destruct (req_method req); reflexivity].
  destruct (handles_method _ _); [reflexivity|].
  destruct (req_method req); reflexivity.
Qed.

(** Freshness looks at three request headers only. *)
Lemma fresh_headers_ext h1 h2 etag :
  h1 !! "if-none-match" = h2 !! "if-none-match" ->
  h1 !! "if-modified-since" = h2 !! "if-modified-since" ->
  h1 !! "cache-control" = h2 !! "cache-control" ->
  fresh_headers h1 etag = fresh_headers h2 etag.
Proof. unfold fresh_headers. intros -> -> ->. reflexivity. Qed.

(** Without a usable If-None-Match no request is fresh. *)
Lemma fresh_headers_needs_none_match h etag :
  truthy (h !! "if-none-match") = false -> fresh_headers h etag = false.
Proof.
  unfold fresh_headers. intros Hnone.
  destruct (h !! "if-none-match") as [[|c tokens]|]; try discriminate Hnone;
    destruct (h !! "if-modified-since") as [[|c' date]|];
    destruct (h !! "cache-control") as [[|c'' directives]|];
    cbn; try reflexivity;
    try (match goal with |- context [no_cache ?v] => destruct (no_cache v) end;
         reflexivity).
Qed.

(** [res.send] on a response still at status 200 that carries no ETag. *)
Lemma send_on_200 req chunk res :
  req_method req = GET \/ req_method req = HEAD ->
  statusCode (send_headers chunk res) = 200 ->
  get "ETag" (send_headers chunk res) = Some (wetag chunk) ->
  send req chunk res
  = if validated req chunk
    then {| statusCode := 304;
            headers := delete "transfer-encoding"
                         (delete "content-length"
                            (delete "content-type"
                               (headers (send_headers chunk res))));
            body := Text "" |}
    else {| statusCode := 200;
            headers := headers (send_headers chunk res);
            body := Text (if is_head (req_method req) then "" else chunk) |}.
Proof.
  intros Hm Hstatus Hetag. unfold send, req_fresh, validated.
  rewrite Hetag, Hstatus.
  destruct (fresh_headers (req_headers req) (Some (wetag chunk)));
    destruct Hm as [-> | ->];
    cbn; rewrite ?Hstatus; cbn; rewrite ?Hstatus; cbn;
    destruct (send_headers chunk res); cbn in Hstatus; subst; reflexivity.
Qed.

(** The three handlers on the response a handler receives. *)
Lemma home_response req :
  req_method req = GET \/ req_method req = HEAD ->
  Server.home req fresh
  = Sent (sent req Server.greeting "text/html; charset=utf-8").
Proof.
  intros Hm. unfold Server.home, sent.
  rewrite send_on_200 by first [exact Hm | vm_compute; reflexivity].
  destruct (validated req Server.greeting); do 2 f_equal; vm_compute; reflexivity.
Qed.

Lemma health_response req :
  req_method req = GET \/ req_method req = HEAD ->
  Server.health req fresh
  = Sent (sent req Server.health_text "application/json; charset=utf-8").
Proof.
  intros Hm. unfold Server.health, json, sent.
  change (Js.stringify _) with Server.health_text.
  rewrite send_on_200 by first [exact Hm | vm_compute; reflexivity].
  destruct (validated req Server.health_text); do 2 f_equal;
    vm_compute; reflexivity.
Qed.

Lemma metrics_response rendering req :
  Server.metrics (Server.register rendering) req fresh
  = match rendering with
    | Js.Resolved text =>
        Sent {| statusCode := 200;
                headers := {[ "content-type" := PromClient.PROMETHEUS_CONTENT_TYPE ]};
                body := Text text |}
    | Js.Rejected reason => Unhandled reason
    end.
Proof. destruct rendering; reflexivity. Qed.

(** The answers of the two static routes to GET and HEAD. *)
Lemma home_served rendering req :
  req_method req = GET \/ req_method req = HEAD ->
  path_match "/" (req_path req) = true ->
  Server.serve rendering req
  = Sent (sent req Server.greeting "text/html; charset=utf-8").
Proof.
  intros Hm Hp. unfold Server.serve, handle. rewrite dispatch_app, Hp.
  replace (handles_method _ (req_method req)) with true
    by (destruct Hm as [-> | ->]; reflexivity).
  rewrite home_response by exact Hm. unfold transport, sent.
  destruct (validated req Server.greeting), Hm as [-> | ->]; reflexivity.
Qed.

Lemma health_served rendering req :
  req_method req = GET \/ req_method req = HEAD ->
  path_match "/health" (req_path req) = true ->
  Server.serve rendering req
  = Sent (sent req Server.health_text "application/json; charset=utf-8").
Proof.
  intros Hm Hp. unfold Server.serve, handle.
  rewrite dispatch_app, (health_not_home _ Hp), Hp.
  replace (handles_method _ (req_method req)) with true
    by (destruct Hm as [-> | ->]; reflexivity).
  rewrite health_response by exact Hm. unfold transport, sent.
  destruct (validated req Server.health_text), Hm as [-> | ->]; reflexivity.
Qed.

Lemma metrics_served rendering req :
  req_method req = GET \/ req_method req = HEAD ->
  path_match "/metrics" (req_path req) = true ->
  Server.serve rendering req
  = match rendering with
    | Js.Resolved text =>
        Sent {| statusCode := 200;
                headers := {[ "content-type" := PromClient.PROMETHEUS_CONTENT_TYPE ]};
                body := Text (if is_head (req_method req) then "" else text) |}
    | Js.Rejected reason => Unhandled reason
    end.
Proof.
  intros Hm Hp. unfold Server.serve, handle.
  rewrite dispatch_app, (metrics_not_home _ Hp), (metrics_not_health _ Hp), Hp.
  replace (handles_method _ (req_method req)) with true
    by (destruct Hm as [-> | ->]; reflexivity).
  rewrite metrics_response. unfold transport.
  destruct rendering, Hm as [Hm | Hm]; rewrite ?Hm; reflexivity.
Qed.

(** ** The routes *)

(** C1, as stated, fails: a GET request to [/health] that carries
    [If-None-Match: *] is answered by [res.send] with status 304 and an
    empty body, not with 200 and the UP body. *)
Lemma conditional_health_counterexample :
  ~ exists res,
      Server.serve (Js.Resolved "up 1")
        {| req_method := GET; req_path := "/health"; req_query := "";
           req_headers := {[ "if-none-match" := "*" ]}; req_body := "" |}
      = Sent res
      /\ statusCode res = 200
      /\ body res = Text Spec.up_text.
Proof.
  intros (res & Hres & Hcode & _).
  vm_compute in Hres. injection Hres as <-. discriminate Hcode.
Qed.

(** C1, amended.  Every GET request to [/health] is answered: with status
    200, the JSON body [{"status":"UP"}] and the JSON content type unless
    the request is a conditional one that the weak entity tag of that
    body satisfies, and then with status 304, an empty body and no
    Content-Type.  A request without If-None-Match is never of the second
    kind. *)
Theorem health_route_up_unless_fresh rendering req :
  req_method req = GET ->
  path_match "/health" (req_path req) = true ->
  exists res,
    Server.serve rendering req = Sent res
    /\ (if validated req Server.health_text
        then statusCode res = 304
             /\ body res = Text ""
             /\ headers res !! "content-type" = None
        else statusCode res = 200
             /\ body res = Text Spec.up_text
             /\ headers res !! "content-type"
                = Some "application/json; charset=utf-8")
    /\ (truthy (req_headers req !! "if-none-match") = false ->
        validated req Server.health_text = false).
Proof.
  intros Hm Hp. rewrite (health_served _ _ (or_introl Hm) Hp).
  eexists; split; [reflexivity|]. split.
  - unfold sent. rewrite Hm.
    destruct (validated req Server.health_text); repeat split; reflexivity.
  - apply fresh_headers_needs_none_match.
Qed.

Lemma health_route_up_unless_fresh_witness :
  exists res,
    Server.serve (Js.Resolved "up 1") (Server.request GET "/health") = Sent res
    /\ (if validated (Server.request GET "/health") Server.health_text
        then statusCode res = 304
             /\ body res = Text ""
             /\ headers res !! "content-type" = None
        else statusCode res = 200
             /\ body res = Text Spec.up_text
             /\ headers res !! "content-type"
                = Some "application/json; charset=utf-8")
    /\ (truthy (req_headers (Server.request GET "/health") !! "if-none-match")
        = false ->
        validated (Server.request GET "/health") Server.health_text = false).
Proof.
  apply (health_route_up_unless_fresh
           (Js.Resolved "up 1") (Server.request GET "/health"));
    reflexivity.
Defined.

(** C3, as stated, fails: the greeting leaves with the content type the
    framework gives a string body, [text/html; charset=utf-8], which is
    neither [text/plain] nor [application/json]. *)
Lemma greeting_type_counterexample :
  ~ Spec.greeting_type_allowed
      (Server.serve (Js.Resolved "up 1") (Server.request GET "/")).
Proof.
  intros (res & ct & Hres & Hct & Htype).
  vm_compute in Hres. injection Hres as <-.
  vm_compute in Hct. injection Hct as <-.
  vm_compute in Htype. destruct Htype; discriminate.
Qed.

(** C3, amended.  Every GET request to [/] is answered: with status 200,
    the static, non-empty greeting and the framework's default type for a
    string body, [text/html; charset=utf-8] (the handler sets none),
    unless the request is a conditional one that the weak entity tag of
    the greeting satisfies, and then with status 304, an empty body and no
    Content-Type.  A request without If-None-Match is never of the second
    kind. *)
Theorem home_route_greeting_unless_fresh rendering req :
  req_method req = GET ->
  path_match "/" (req_path req) = true ->
  exists res,
    Server.serve rendering req = Sent res
    /\ (if validated req Server.greeting
        then statusCode res = 304
             /\ body res = Text ""
             /\ headers res !! "content-type" = None
        else statusCode res = 200
             /\ body res = Text Server.greeting
             /\ Server.greeting <> ""
             /\ headers res !! "content-type" = Some "text/html; charset=utf-8")
    /\ (truthy (req_headers req !! "if-none-match") = false ->
        validated req Server.greeting = false).
Proof.
  intros Hm Hp. rewrite (home_served _ _ (or_introl Hm) Hp).
  eexists; split; [reflexivity|]. split.
  - unfold sent. rewrite Hm.
    destruct (validated req Server.greeting); repeat split;
      first [reflexivity | discriminate].
  - apply fresh_headers_needs_none_match.
Qed.

Lemma home_route_greeting_unless_fresh_witness :
  exists res,
    Server.serve (Js.Rejected "EMFILE") (Server.request GET "/") = Sent res
    /\ (if validated (Server.request GET "/") Server.greeting
        then statusCode res = 304
             /\ body res = Text ""
             /\ headers res !! "content-type" = None
        else statusCode res = 200
             /\ body res = Text Server.greeting
             /\ Server.greeting <> ""
             /\ headers res !! "content-type" = Some "text/html; charset=utf-8")
    /\ (truthy (req_headers (Server.request GET "/") !! "if-none-match") = false ->
        validated (Server.request GET "/") Server.greeting = false).
Proof.
  apply (home_route_greeting_unless_fresh
           (Js.Rejected "EMFILE") (Server.request GET "/"));
    reflexivity.
Defined.

(** C9.  A request whose pathname none of the three routes accepts is
    answered with status 404, whatever its method. *)
Theorem unmatched_path_404 rendering req :
  path_match "/" (req_path req) = false ->
  path_match "/health" (req_path req) = false ->
  path_match "/metrics" (req_path req) = false ->
  exists res,
    Server.serve rendering req = Sent res /\ statusCode res = 404.
Proof.
  intros H1 H2 H3. unfold Server.serve, handle.
  rewrite dispatch_app, H1, H2, H3. unfold transport.
  destruct (is_head (req_method req)); eexists; split; reflexivity.
Qed.

Lemma unmatched_path_404_witness :
  exists res,
    Server.serve (Js.Resolved "up 1") (Server.request GET "/nonexistent") = Sent res
    /\ statusCode res = 404.
Proof.
  apply (unmatched_path_404 (Js.Resolved "up 1") (Server.request GET "/nonexistent"));
    reflexivity.
Defined.

(** Requests with the same conditional headers are validated alike. *)
Lemma validated_ext req1 req2 entity :
  conditional_headers req1 = conditional_headers req2 ->
  validated req1 entity = validated req2 entity.
Proof.
  unfold conditional_headers, validated. intros [= Hnone Hsince Hcache].
  apply fresh_headers_ext; assumption.
Qed.

(** C10, as stated, fails: two GET requests to [/health] that differ in
    one header, If-None-Match, get different statuses and bodies. *)
Lemma conditional_request_counterexample :
  ~ exists res1 res2,
      Server.serve (Js.Resolved "up 1") (Server.request GET "/health")
      = Sent res1
      /\ Server.serve (Js.Resolved "up 1")
           {| req_method := GET; req_path := "/health"; req_query := "";
              req_headers := {[ "if-none-match" := "*" ]}; req_body := "" |}
         = Sent res2
      /\ statusCode res1 = statusCode res2
      /\ body res1 = body res2.
Proof.
  intros (res1 & res2 & H1 & H2 & Hcode & _).
  vm_compute in H1. injection H1 as <-.
  vm_compute in H2. injection H2 as <-.
  discriminate Hcode.
Qed.

(** C10, amended.  Two GET requests that reach the same of the routes [/]
    and [/health] and carry the same If-None-Match, If-Modified-Since and
    Cache-Control headers (as when they carry none) get the same response
    (status, body and the header fields set through the response
    interface), whatever their query strings, other headers and bodies,
    and whatever the registry would render at either moment: the handlers
    read nothing from the request, and [res.send] reads those three
    headers only. *)
Theorem static_routes_read_validators_only
    route rendering1 rendering2 req1 req2 :
  route = "/" \/ route = "/health" ->
  req_method req1 = GET ->
  req_method req2 = GET ->
  path_match route (req_path req1) = true ->
  path_match route (req_path req2) = true ->
  conditional_headers req1 = conditional_headers req2 ->
  Server.serve rendering1 req1 = Server.serve rendering2 req2
  /\ exists res, Server.serve rendering1 req1 = Sent res.
Proof.
  intros Hroute Hm1 Hm2 Hp1 Hp2 Hcond.
  destruct Hroute as [-> | ->].
  - rewrite (home_served _ _ (or_introl Hm1) Hp1).
    rewrite (home_served _ _ (or_introl Hm2) Hp2).
    unfold sent. rewrite (validated_ext _ _ _ Hcond), Hm1, Hm2.
    split; [reflexivity | eexists; reflexivity].
  - rewrite (health_served _ _ (or_introl Hm1) Hp1).
    rewrite (health_served _ _ (or_introl Hm2) Hp2).
    unfold sent. rewrite (validated_ext _ _ _ Hcond), Hm1, Hm2.
    split; [reflexivity | eexists; reflexivity].
Qed.

Lemma static_routes_read_validators_only_witness :
  Server.serve (Js.Resolved "up 1")
    {| req_method := GET; req_path := "/health"; req_query := "";
       req_headers := ∅; req_body := "" |}
  = Server.serve (Js.Rejected "EMFILE")
      {| req_method := GET; req_path := "/Health/"; req_query := "verbose=1";
         req_headers := {[ "cookie" := "sid=42" ]}; req_body := "ignored" |}
  /\ exists res,
       Server.serve (Js.Resolved "up 1")
         {| req_method := GET; req_path := "/health"; req_query := "";
            req_headers := ∅; req_body := "" |}
       = Sent res.
Proof.
  apply (static_routes_read_validators_only "/health");
    first [ right; reflexivity | reflexivity ].
Defined.



(** C7, as stated, fails: when the rendering rejects inside the async
    metrics handler, the request ends without any response. *)
Lemma rendering_error_counterexample :
  ~ Spec.contained
      (Server.serve (Js.Rejected "EMFILE") (Server.request GET "/metrics")).
Proof. intros [res Hres]. vm_compute in Hres. discriminate Hres. Qed.

(** C7, amended.  Every request that does not run the metrics handler is
    answered with a status code, and so is every request when the
    rendering resolves; [server.js] installs no error handling of its own,
    so when the rendering rejects inside the async metrics handler the
    rejection is caught by nobody and no response is written. *)
Theorem errors_contained_unless_rendering_rejects rendering req :
  (Server.reaches_metrics req = false ->
   Spec.contained (Server.serve rendering req))
  /\ (forall text,
        rendering = Js.Resolved text ->
        Spec.contained (Server.serve rendering req))
  /\ (forall reason,
        Server.reaches_metrics req = true ->
        rendering = Js.Rejected reason ->
        Server.serve rendering req = Unhandled reason).
Proof.
  unfold Server.serve, handle, Spec.contained, Server.reaches_metrics.
  rewrite dispatch_app.
  destruct req as [m path query hdrs payload]; cbn [req_method req_path].
  destruct (path_match "/metrics" path) eqn:Hmetrics.
  - rewrite (metrics_not_home _ Hmetrics), (metrics_not_health _ Hmetrics).
    rewrite metrics_response.
    repeat split.
    + destruct m; intros [=]; eexists; reflexivity.
    + intros text ->. destruct m; eexists; reflexivity.
    + intros reason Hm ->. destruct m; try discriminate Hm; reflexivity.
  - cbn [dispatch route_path req_path req_method]. rewrite Hmetrics.
    repeat split.
    + intros _.
      destruct (path_match "/" path), (path_match "/health" path), m;
        eexists; reflexivity.
    + intros text _.
      destruct (path_match "/" path), (path_match "/health" path), m;
        eexists; reflexivity.
    + intros reason [=].
Qed.

Lemma errors_contained_unless_rendering_rejects_witness :
  Spec.contained
    (Server.serve (Js.Rejected "EMFILE") (Server.request POST "/health"))
  /\ Spec.contained
       (Server.serve (Js.Resolved "up 1") (Server.request GET "/metrics"))
  /\ Server.serve (Js.Rejected "EMFILE") (Server.request HEAD "/metrics")
     = Unhandled "EMFILE".
Proof.
  split; [|split].
  - apply (proj1 (errors_contained_unless_rendering_rejects
                    (Js.Rejected "EMFILE") (Server.request POST "/health"))).
    reflexivity.
  - apply (proj1 (proj2 (errors_contained_unless_rendering_rejects
                    (Js.Resolved "up 1") (Server.request GET "/metrics")))
             "up 1").
    reflexivity.
  - apply (proj2 (proj2 (errors_contained_unless_rendering_rejects
                    (Js.Rejected "EMFILE") (Server.request HEAD "/metrics")))
             "EMFILE"); reflexivity.
Defined.

(** ** The listener *)

(** C2, as stated, fails: no environment variable and no default make the
    bound port follow the specification's rule.  With the variable set to
    8080 the process still binds 3000. *)
Lemma port_counterexample :
  ~ exists var default,
      forall env : gmap string string,
        Some (Server.port (Server.main env))
        = Spec.spec_listen_port var default env.
Proof.
  intros (var & default & Hrule).
  specialize (Hrule {[ var := "8080" ]}).
  unfold Spec.spec_listen_port in Hrule.
  rewrite lookup_singleton_eq in Hrule.
  vm_compute in Hrule. discriminate Hrule.
Qed.

(** C2, amended.  The listener binds port 3000 in every environment, and
    logs that port: [server.js] never reads [process.env]. *)
Theorem port_fixed (env : gmap string string) :
  Server.port (Server.main env) = 3000
  /\ Server.console (Server.main env) = ["Server running on port 3000"].
Proof. split; reflexivity. Qed.

(** ** Health status *)





(** ** Beyond the three GET answers: methods, order, independence *)

(** The three routes accept disjoint sets of pathnames. *)
Lemma route_cases path :
  (path_match "/" path = false /\ path_match "/health" path = false
   /\ path_match "/metrics" path = false)
  \/ (path_match "/" path = true /\ path_match "/health" path = false
      /\ path_match "/metrics" path = false)
  \/ (path_match "/" path = false /\ path_match "/health" path = true
      /\ path_match "/metrics" path = false)
  \/ (path_match "/" path = false /\ path_match "/health" path = false
      /\ path_match "/metrics" path = true).
Proof.
  destruct (path_match "/metrics" path) eqn:Hmetrics.
  - rewrite (metrics_not_home _ Hmetrics), (metrics_not_health _ Hmetrics).
    tauto.
  - destruct (path_match "/health" path) eqn:Hhealth.
    + rewrite (health_not_home _ Hhealth). tauto.
    + destruct (path_match "/" path); tauto.
Qed.

(** X1.  Every response the process writes has status 200, 304 or 404:
    404 exactly when no registered route accepts the pathname or the
    method is not GET, HEAD or OPTIONS (the file registers GET handlers
    only); 304 exactly for a GET or HEAD on [/] or [/health] that is fresh
    against the body of that route; 200 otherwise.  A 5xx is never
    written, and a response lacks a Content-Type exactly when it is a
    304. *)
Theorem response_status_and_type rendering req res :
  Server.serve rendering req = Sent res ->
  statusCode res
  = (if routed req then if not_modified req then 304 else 200 else 404)
  /\ (headers res !! "content-type" = None <-> statusCode res = 304).
Proof.
  unfold routed, not_modified, known_path, route_paths. cbn [existsb].
  destruct (req_method req) eqn:Hm.
  1, 2:
    destruct (route_cases (req_path req))
      as [(H1 & H2 & H3) | [(H1 & H2 & H3) | [(H1 & H2 & H3) | (H1 & H2 & H3)]]];
    rewrite H1, H2, H3; cbn [orb andb];
    [ unfold Server.serve, handle;
      rewrite dispatch_app, H1, H2, H3; unfold transport; rewrite Hm;
      intros [= <-]; split; [reflexivity | split; discriminate]
    | rewrite home_served by (rewrite ?Hm; tauto); unfold sent;
      destruct (validated req Server.greeting); intros [= <-];
      (split; [reflexivity | split; first [reflexivity | discriminate]])
    | rewrite health_served by (rewrite ?Hm; tauto); unfold sent;
      destruct (validated req Server.health_text); intros [= <-];
      (split; [reflexivity | split; first [reflexivity | discriminate]])
    | rewrite metrics_served by (rewrite ?Hm; tauto);
      destruct rendering; intros [= <-];
      (split; [reflexivity | split; discriminate]) ].
  all: unfold Server.serve, handle; rewrite dispatch_app;
    destruct req as [m path query hdrs payload];
    cbn [dispatch route_path req_path req_method] in *; subst m;
    destruct (path_match "/" path), (path_match "/health" path),
      (path_match "/metrics" path);
    intros Hres; vm_compute in Hres; injection Hres as <-; vm_compute;
    (split; [reflexivity | split; discriminate]).
Qed.

Lemma response_status_and_type_witness :
  statusCode (not_found (Server.request POST "/health"))
  = (if routed (Server.request POST "/health")
     then if not_modified (Server.request POST "/health") then 304 else 200
     else 404)
  /\ (headers (not_found (Server.request POST "/health")) !! "content-type"
      = None
      <-> statusCode (not_found (Server.request POST "/health")) = 304).
Proof.
  apply (response_status_and_type
           (Js.Rejected "EMFILE") (Server.request POST "/health")).
  reflexivity.
Defined.

(** A stack is searched only through the routes that accept the pathname. *)
Lemma dispatch_accepting stack allowed req :
  dispatch stack allowed req = dispatch (accepting req stack) allowed req.
Proof.
  unfold accepting. revert allowed.
  induction stack as [|r stack IH]; intros allowed; [reflexivity|].
  cbn [dispatch].
  destruct (path_match (route_path r) (req_path req)) eqn:Hr.
  - rewrite filter_cons_True by exact Hr. cbn [dispatch]. rewrite Hr.
    destruct (handles_method r (req_method req)); [reflexivity | apply IH].
  - rewrite filter_cons_False by congruence. apply IH.
Qed.

(** At most one route of [server.js] accepts a given pathname. *)
Lemma accepting_at_most_one register req :
  (length (accepting req (Server.app register)) <= 1)%nat.
Proof.
  unfold accepting, Server.app, get_route, express. cbn [app].
  rewrite !filter_cons, filter_nil.
  repeat case_decide; cbn [route_path length] in *; try lia; exfalso;
    try match goal with
        | H : path_match "/metrics" _ = true |- _ =>
            pose proof (metrics_not_home _ H);
            pose proof (metrics_not_health _ H)
        end;
    try match goal with
        | H : path_match "/health" _ = true |- _ =>
            pose proof (health_not_home _ H)
        end;
    congruence.
Qed.

(** The automatic OPTIONS answer does not look at the request beyond its
    method. *)
Lemma options_answer req allowed :
  req_method req = OPTIONS ->
  options_response req allowed
  = options_response (Server.request OPTIONS "") allowed.
Proof.
  intros Hm. unfold options_response, send, req_fresh. rewrite Hm. reflexivity.
Qed.

(** X2.  A HEAD request gets the status, the Content-Type and the ETag
    that the same request sent with GET gets, and an empty body; on
    [/metrics] it meets the same unanswered rejection when the rendering
    rejects. *)
Theorem head_mirrors_get rendering req :
  match Server.serve rendering (with_method HEAD req),
        Server.serve rendering (with_method GET req) with
  | Sent head, Sent full =>
      statusCode head = statusCode full
      /\ headers head !! "content-type" = headers full !! "content-type"
      /\ headers head !! "etag" = headers full !! "etag"
      /\ body head = Text ""
  | Unhandled reason1, Unhandled reason2 => reason1 = reason2
  | _, _ => False
  end.
Proof.
  destruct (route_cases (req_path req))
    as [(H1 & H2 & H3) | [(H1 & H2 & H3) | [(H1 & H2 & H3) | (H1 & H2 & H3)]]].
  - unfold Server.serve, handle. rewrite !dispatch_app.
    cbn [with_method req_path req_method]. rewrite H1, H2, H3.
    repeat split.
  - rewrite !home_served by (cbn [with_method req_method req_path]; tauto).
    unfold sent, validated. cbn [with_method req_headers req_method is_head].
    destruct (fresh_headers _ _); repeat split.
  - rewrite !health_served by (cbn [with_method req_method req_path]; tauto).
    unfold sent, validated. cbn [with_method req_headers req_method is_head].
    destruct (fresh_headers _ _); repeat split.
  - rewrite !metrics_served by (cbn [with_method req_method req_path]; tauto).
    destruct rendering; repeat split.
Qed.

(** X3.  OPTIONS on a pathname a registered route accepts is answered
    with status 200 and the methods GET and HEAD in the Allow header and
    the body; no handler runs, so the registry is not asked to render. *)
Theorem options_lists_get_and_head rendering req :
  req_method req = OPTIONS ->
  known_path (req_path req) = true ->
  exists res,
    Server.serve rendering req = Sent res
    /\ statusCode res = 200
    /\ headers res !! "allow" = Some "GET,HEAD"
    /\ body res = Text "GET,HEAD".
Proof.
  unfold Server.serve, handle, known_path, route_paths.
  rewrite dispatch_app.
  destruct req as [m path query hdrs payload].
  cbn [dispatch route_path req_path req_method existsb].
  intros -> Hknown.
  destruct (path_match "/" path), (path_match "/health" path),
    (path_match "/metrics" path); try discriminate Hknown;
    (eexists; split; [reflexivity | repeat split; reflexivity]).
Qed.

Lemma options_lists_get_and_head_witness :
  exists res,
    Server.serve (Js.Rejected "EMFILE") (Server.request OPTIONS "/metrics")
    = Sent res
    /\ statusCode res = 200
    /\ headers res !! "allow" = Some "GET,HEAD"
    /\ body res = Text "GET,HEAD".
Proof.
  apply (options_lists_get_and_head
           (Js.Rejected "EMFILE") (Server.request OPTIONS "/metrics"));
    reflexivity.
Defined.

(** X4.  What the registry renders matters to the metrics handler only:
    a request that does not run it (another pathname, or a method other
    than GET and HEAD) gets the same outcome whether the rendering
    resolves, to whatever text, or rejects. *)
Theorem rendering_matters_only_for_metrics rendering1 rendering2 req :
  Server.reaches_metrics req = false ->
  Server.serve rendering1 req = Server.serve rendering2 req.
Proof.
  unfold Server.serve, handle, Server.reaches_metrics.
  rewrite !dispatch_app.
  destruct req as [m path query hdrs payload].
  cbn [dispatch route_path req_path req_method].
  destruct (path_match "/" path), (path_match "/health" path),
    (path_match "/metrics" path), m; intros [=]; reflexivity.
Qed.

Lemma rendering_matters_only_for_metrics_witness :
  Server.serve (Js.Resolved "up 1") (Server.request POST "/metrics")
  = Server.serve (Js.Rejected "EMFILE") (Server.request POST "/metrics").
Proof.
  apply (rendering_matters_only_for_metrics
           (Js.Resolved "up 1") (Js.Rejected "EMFILE")
           (Server.request POST "/metrics")).
  reflexivity.
Defined.

(** X5.  On the registered routes the outcome depends on the request only
    through its method, the route that accepts its pathname and its
    If-None-Match, If-Modified-Since and Cache-Control headers: two
    requests with the same method among GET, HEAD and OPTIONS whose
    pathnames the same route accepts and which agree on those three
    headers get the same outcome (status, body and the header fields set
    through the response interface, or the same unanswered rejection),
    whatever the spelling of the pathname, the query string, the other
    headers and the body. *)
Theorem outcome_depends_on_method_route_validators rendering route req1 req2 :
  req_method req1 = req_method req2 ->
  routed req1 = true ->
  route ∈ route_paths ->
  path_match route (req_path req1) = true ->
  path_match route (req_path req2) = true ->
  conditional_headers req1 = conditional_headers req2 ->
  Server.serve rendering req1 = Server.serve rendering req2.
Proof.
  intros Hm Hrouted Hroute Hp1 Hp2 Hcond.
  unfold routed in Hrouted. apply andb_true_iff in Hrouted as [_ Hmethod].
  assert (req_method req1 = GET \/ req_method req1 = HEAD
          \/ req_method req1 = OPTIONS) as [Hm1 | [Hm1 | Hm1]]
    by (destruct (req_method req1); try discriminate Hmethod; tauto).
  1, 2:
    assert (req_method req1 = GET \/ req_method req1 = HEAD) as Hgh1 by tauto;
    assert (req_method req2 = GET \/ req_method req2 = HEAD) as Hgh2
      by (rewrite <- Hm; tauto);
    unfold route_paths in Hroute;
    repeat (apply elem_of_cons in Hroute as [-> | Hroute]);
    [ rewrite (home_served _ _ Hgh1 Hp1), (home_served _ _ Hgh2 Hp2)
    | rewrite (health_served _ _ Hgh1 Hp1), (health_served _ _ Hgh2 Hp2)
    | rewrite (metrics_served _ _ Hgh1 Hp1), (metrics_served _ _ Hgh2 Hp2)
    | apply elem_of_nil in Hroute as [] ];
    unfold sent; rewrite <- ?Hm, ?(validated_ext _ _ _ Hcond); reflexivity.
  assert (req_method req2 = OPTIONS) as Hm2 by congruence.
  assert (forall req,
            req_method req = OPTIONS ->
            path_match route (req_path req) = true ->
            Server.serve rendering req
            = Sent (options_response (Server.request OPTIONS "") ["GET"; "HEAD"]))
    as Hoptions.
  { intros req Hmo Hp. unfold Server.serve, handle. rewrite dispatch_app.
    pose proof (route_cases (req_path req)) as Hcases.
    unfold route_paths in Hroute.
    destruct req as [m path query hdrs payload].
    cbn [dispatch route_path req_path req_method] in *. subst m.
    repeat (apply elem_of_cons in Hroute as [-> | Hroute]);
      [| | | apply elem_of_nil in Hroute as []];
      rewrite Hp in Hcases;
      destruct Hcases
        as [(H1 & H2 & H3) | [(H1 & H2 & H3) | [(H1 & H2 & H3) | (H1 & H2 & H3)]]];
      try discriminate; rewrite ?H1, ?H2, ?H3, ?Hp;
      cbn; rewrite options_answer by reflexivity; reflexivity. }
  rewrite (Hoptions req1 Hm1 Hp1), (Hoptions req2 Hm2 Hp2). reflexivity.
Qed.

Lemma outcome_depends_on_method_route_validators_witness :
  Server.serve (Js.Resolved "up 1")
    {| req_method := HEAD; req_path := "/metrics"; req_query := "";
       req_headers := ∅; req_body := "" |}
  = Server.serve (Js.Resolved "up 1")
      {| req_method := HEAD; req_path := "/Metrics/"; req_query := "name=up";
         req_headers := {[ "accept" := "text/plain" ]}; req_body := "ignored" |}.
Proof.
  apply (outcome_depends_on_method_route_validators
           (Js.Resolved "up 1") "/metrics");
    first [ reflexivity | repeat constructor ].
Defined.

(** X6.  The order of the three [app.get] registrations is immaterial: at
    most one of the routes accepts a given pathname, so an application
    that registers the same three routes in any other order answers every
    request as [server.js] does. *)
Theorem registration_order_immaterial rendering stack req :
  stack ≡ₚ Server.app (Server.register rendering) ->
  handle stack req = Server.serve rendering req.
Proof.
  intros Hperm. unfold Server.serve, handle. f_equal.
  rewrite (dispatch_accepting stack), (dispatch_accepting (Server.app _)).
  f_equal.
  assert (accepting req stack
          ≡ₚ accepting req (Server.app (Server.register rendering))) as Hacc.
  { unfold accepting. rewrite Hperm. reflexivity. }
  pose proof (accepting_at_most_one (Server.register rendering) req) as Hlen.
  destruct (accepting req (Server.app (Server.register rendering)))
    as [|r [|r' rest]].
  - apply Permutation_nil_r, Hacc.
  - apply Permutation_singleton_r, Hacc.
  - cbn in Hlen. lia.
Qed.

Lemma registration_order_immaterial_witness :
  handle
    (get_route "/" Server.home
      (get_route "/health" Server.health
        (get_route "/metrics" (Server.metrics (Server.register (Js.Resolved "up 1")))
          express)))
    (Server.request GET "/health")
  = Server.serve (Js.Resolved "up 1") (Server.request GET "/health").
Proof.
  apply registration_order_immaterial.
  unfold Server.app, get_route, express. cbn [app].
  etransitivity; [apply Permutation_swap|].
  etransitivity; [apply Permutation_skip, Permutation_swap|].
  apply Permutation_swap.
Defined.

(** ** The metric registry *)

Import Spec.MetricRegistry.

Lemma registered_spec n r : registered n r = true <-> n ∈ names r.
Proof.
  unfold registered. rewrite existsb_exists, list_elem_of_In. split.
  - intros (x & Hx & Heq). apply String.eqb_eq in Heq. congruence.
  - intros Hn. exists n. split; [exact Hn | apply String.eqb_refl].
Qed.

Lemma names_snoc l m :
  map name (l ++ [m])%list = (map name l ++ [name m])%list.
Proof. apply map_app. Qed.

(** Registration keeps the names of the registry distinct. *)
Lemma register_keeps_names_distinct m r :
  NoDup (names r) -> NoDup (names (fst (register m r))).
Proof.
  intros Hr. unfold register.
  destruct (registered (name m) r) eqn:Hreg; cbn [fst]; [exact Hr|].
  unfold names in *. cbn [entries]. rewrite names_snoc.
  apply NoDup_app. repeat split.
  - exact Hr.
  - intros n Hn Hm. apply list_elem_of_singleton in Hm as ->.
    apply registered_spec in Hn. congruence.
  - apply NoDup_singleton.
Qed.

Lemma reachable_names_distinct r : reachable r -> NoDup (names r).
Proof.
  induction 1 as [|r m _ IH].
  - apply NoDup_nil_2.
  - apply register_keeps_names_distinct, IH.
Qed.

Lemma no_entry_for_absent_name n l :
  n ∉ map name l ->
  filter (fun e => entry_name e = n) (map sample l) = [].
Proof.
  induction l as [|m l IH]; intros Hn; [reflexivity|].
  cbn [map] in *. apply not_elem_of_cons in Hn as [Hne Hn].
  rewrite filter_cons_False by (cbn; congruence). apply IH, Hn.
Qed.

(** Distinct names give one entry per name. *)
Lemma one_entry_per_name n l :
  NoDup (map name l) -> n ∈ map name l ->
  length (filter (fun e => entry_name e = n) (map sample l)) = 1%nat.
Proof.
  induction l as [|m l IH]; intros Hnodup Hn; cbn [map] in *.
  - apply elem_of_nil in Hn as [].
  - apply NoDup_cons in Hnodup as [Hm Hnodup].
    destruct (decide (name m = n)) as [<- | Hne].
    + rewrite filter_cons_True by reflexivity.
      rewrite no_entry_for_absent_name by exact Hm. reflexivity.
    + rewrite filter_cons_False by (cbn; congruence).
      apply elem_of_cons in Hn as [-> | Hn]; [congruence|].
      apply IH; assumption.
Qed.

(** C8.  In every registry a process can hold the metric names are
    distinct; [render()] has exactly one entry for each registered name;
    registering a metric whose name exists fails with
    [DuplicateNameError] and leaves the registry as it was; and
    registering a new name succeeds and gives that name its one entry. *)
Theorem registry_names_unique r :
  reachable r ->
  NoDup (names r)
  /\ (forall n, n ∈ names r -> length (entries_for n r) = 1%nat)
  /\ (forall m,
        name m ∈ names r ->
        register m r = (r, inl (DuplicateNameError (name m))))
  /\ (forall m,
        name m ∉ names r ->
        exists handle,
          snd (register m r) = inr handle
          /\ length (entries_for (name m) (fst (register m r))) = 1%nat).
Proof.
  intros Hr. pose proof (reachable_names_distinct r Hr) as Hnodup.
  split; [exact Hnodup|]. split; [|split].
  - intros n Hn. apply one_entry_per_name; assumption.
  - intros m Hm. apply registered_spec in Hm.
    unfold register. rewrite Hm. reflexivity.
  - intros m Hm.
    pose proof (reachable_names_distinct _ (reachable_register r m Hr)) as Hnew.
    assert (registered (name m) r = false) as Hfresh.
    { destruct (registered (name m) r) eqn:E; [|reflexivity].
      apply registered_spec in E. contradiction. }
    revert Hnew. unfold register. rewrite Hfresh. cbn [fst snd]. intros Hnew.
    eexists; split; [reflexivity|].
    apply one_entry_per_name; [exact Hnew|].
    cbn [entries]. rewrite names_snoc. apply elem_of_app. right.
    apply list_elem_of_singleton. reflexivity.
Qed.

Lemma registry_names_unique_witness :
  let up := {| name := "up"; kind := Gauge; labels := []; value := Some 1 |} in
  let r := fst (register up empty) in
  register up r = (r, inl (DuplicateNameError "up"))
  /\ length (entries_for "up" r) = 1%nat.
Proof.
  intros up r.
  destruct (registry_names_unique r (reachable_register empty up reachable_empty))
    as (_ & Hone & Hdup & _).
  split.
  - apply (Hdup up). vm_compute. constructor.
  - apply (Hone "up"). vm_compute. constructor.
Defined.
